(** * The application bootstrapper of the savage-aim frontend

    A shallow embedding of [frontend/src/main.ts].  The module body is a
    straight-line script whose every step is a call into an imported
    library (the UI framework, its plugins, the telemetry SDK).  The
    script is embedded as a program over library calls; the libraries
    themselves are a parameter of the semantics, so every statement below
    holds whatever the libraries answer, including when they raise.  The
    imports of lines 1-9 are taken as resolved: the script starts at
    line 11 with the nine bindings in hand. *)

From Stdlib Require Import QArith Ascii.
From stdpp Require Import gmap strings list fin_maps.

Close Scope Q_scope.
Open Scope string_scope.
Open Scope list_scope.

(** ** Values *)

(** The bindings brought in by the import block (lines 1-9).  Each names
    one module-level object; two uses of a binding denote the same
    object. *)
Inductive Binding :=
| Sentry | Vue | Notifications | VModal | VueCookies | VueShortkey
| App | router | store.

#[global] Instance Binding_eq_dec : EqDecision Binding.
Proof. solve_decision. Defined.

(** The values the script builds and passes around.  An object literal is
    a finite map from property names to values; numbers are the exact
    rationals the literals denote (0, 0.5 and 1 are exact as doubles). *)
#[warnings="-register-all"]
Inductive Value :=
| VUndefined
| VBool (b : bool)
| VStr (s : string)
| VNum (q : Q)
| VObj (fields : gmap string Value)
| VArr (items : list Value)
| VImport (b : Binding)          (* a reference to an imported object *)
| VHandle (id : nat)             (* a reference to an object a library made *)
| VRender (component : Binding). (* the arrow function (h) => h(component) *)

(** [{ k1: v1, k2: v2, ... }]: properties are written left to right, a
    repeated key keeps the last value. *)
Definition obj_lit (kvs : list (string * Value)) : gmap string Value :=
  fold_left (fun m kv => <[kv.1 := kv.2]> m) kvs ∅.

(** ** Library calls *)

(** The three ways the script reaches into a library. *)
Inductive Call :=
| Assign (obj : Value) (path : list string) (v : Value)
    (* obj.p1.p2 = v *)
| Invoke (obj : Value) (method : string) (args : list Value)
    (* obj.method(args) *)
| Construct (ctor : Value) (member : list string) (args : list Value).
    (* new ctor.member(args) *)

(** A call returns a value or raises one. *)
Inductive Outcome :=
| Normal (v : Value)
| Throw (e : Value).

Record Event := Ev { ev_call : Call; ev_out : Outcome }.

(** ** Programs *)

(** Scripts over library calls.  [Try] is the language's [try]/[catch]:
    it is part of the language so that its absence from the bootstrap
    script is a fact about the script and not about the model. *)
Inductive Prog :=
| Ret (v : Value)
| Do (c : Call) (k : Value -> Prog)
| Try (body : Prog) (handler : Value -> Prog) (k : Value -> Prog).

(** [call x := c in k] makes the call [c], names its result [x] and goes
    on with [k]; a raised value ends the script there. *)
Notation "'call' x := c 'in' k" := (Do c (fun x => k))
  (at level 10, x name, c at level 100, k at level 200,
   format "'[v' 'call'  x  :=  c  'in' '/' k ']'").

(** A program without any [try]/[catch]. *)
Inductive handler_free : Prog -> Prop :=
| hf_Ret v : handler_free (Ret v)
| hf_Do c k : (forall v, handler_free (k v)) -> handler_free (Do c k).

Record Run (World : Type) := MkRun {
  trace : list Event;   (* the calls made, oldest first, with their outcomes *)
  final : World;        (* the libraries' state afterwards *)
  outcome : Outcome     (* how the script ended *)
}.
Arguments MkRun {World}.
Arguments trace {World}.
Arguments final {World}.
Arguments outcome {World}.

(** The run [r], with the events [pre] having happened before it. *)
Definition after {World : Type} (pre : list Event) (r : Run World) : Run World :=
  MkRun (pre ++ trace r) (final r) (outcome r).

Section Semantics.
Context {World : Type}.
(** The libraries: given their state and a call, the new state and the
    call's outcome. *)
Variable lib : World -> Call -> World * Outcome.

(** A call that raises ends the enclosing script, unless a [Try] around
    it takes the raised value to its handler. *)
Fixpoint run (p : Prog) (w : World) : Run World :=
  match p with
  | Ret v => MkRun [] w (Normal v)
  | Do c k =>
      match lib w c with
      | (w1, Normal v) => after [Ev c (Normal v)] (run (k v) w1)
      | (w1, Throw e) => MkRun [Ev c (Throw e)] w1 (Throw e)
      end
  | Try body handler k =>
      let rb := run body w in
      match outcome rb with
      | Normal v => after (trace rb) (run (k v) (final rb))
      | Throw e =>
          let rh := run (handler e) (final rb) in
          after (trace rb)
            match outcome rh with
            | Normal v => after (trace rh) (run (k v) (final rh))
            | Throw _ => rh
            end
      end
  end.
End Semantics.

(** ** The script *)

(** Lines 12-23. *)
Definition styles : gmap string Value :=
  obj_lit [("max-height", VStr "80vh"); ("overflow-y", VStr "auto")].

Definition dynamicDefaults : gmap string Value :=
  obj_lit [("adaptive", VBool true);
           ("classes", VStr "card");
           ("height", VStr "auto");
           ("width", VStr "800px");
           ("resizable", VBool false);
           ("scrollable", VBool true);
           ("styles", VObj styles)].

(** Line 25, second argument: [{ dynamicDefaults }]. *)
Definition modal_options : Value :=
  VObj (obj_lit [("dynamicDefaults", VObj dynamicDefaults)]).

Definition dsn : string :=
  "https://06f41b525a40497a848fb726f6d03244@o242258.ingest.sentry.io/6180221".

Definition release : string := "savageaim@20240716".

Definition tracesSampleRate : Q := 0.5%Q.
Definition replaysSessionSampleRate : Q := 0%Q.
Definition replaysOnErrorSampleRate : Q := 1%Q.

(** Line 35-37, the argument of [new Sentry.BrowserTracing]. *)
Definition tracing_options (instrumentation : Value) : Value :=
  VObj (obj_lit [("routingInstrumentation", instrumentation)]).

(** Lines 29-45, the argument of [Sentry.init], once its two integrations
    have been constructed. *)
Definition sentry_options (tracing replay : Value) : gmap string Value :=
  obj_lit [("Vue", VImport Vue);
           ("dsn", VStr dsn);
           ("logErrors", VBool true);
           ("release", VStr release);
           ("integrations", VArr [tracing; replay]);
           ("tracesSampleRate", VNum tracesSampleRate);
           ("replaysSessionSampleRate", VNum replaysSessionSampleRate);
           ("replaysOnErrorSampleRate", VNum replaysOnErrorSampleRate)].

(** Lines 47-51, the argument of [new Vue]. *)
Definition root_options : gmap string Value :=
  obj_lit [("render", VRender App);
           ("router", VImport router);
           ("store", VImport store)].

Definition mount_point : string := "#app".

(** The module body, lines 11-51, in evaluation order: the arguments of
    [Sentry.init] are evaluated before the call, innermost first. *)
Definition bootstrap : Prog :=
  call _ := Assign (VImport Vue) ["config"; "productionTip"] (VBool false) in
  call _ := Invoke (VImport Vue) "use" [VImport Notifications] in
  call _ := Invoke (VImport Vue) "use" [VImport VModal; modal_options] in
  call _ := Invoke (VImport Vue) "use" [VImport VueCookies] in
  call _ := Invoke (VImport Vue) "use" [VImport VueShortkey] in
  call instrumentation :=
    Invoke (VImport Sentry) "vueRouterInstrumentation" [VImport router] in
  call tracing :=
    Construct (VImport Sentry) ["BrowserTracing"]
              [tracing_options instrumentation] in
  call replay := Construct (VImport Sentry) ["Replay"] [] in
  call _ := Invoke (VImport Sentry) "init"
                   [VObj (sentry_options tracing replay)] in
  call root := Construct (VImport Vue) [] [VObj root_options] in
  call mounted := Invoke root "$mount" [VStr mount_point] in
  Ret mounted.

(** ** Reading a trace *)

(** The calls [obj.m(args)] on the imported object [obj], oldest first:
    the arguments and the outcome of each. *)
Definition invoked (obj : Binding) (m : string) (tr : list Event)
  : list (list Value * Outcome) :=
  omap (fun ev =>
          match ev_call ev with
          | Invoke receiver m' args =>
              if bool_decide (m' = m) then
                match receiver with
                | VImport b =>
                    if bool_decide (b = obj)
                    then Some (args, ev_out ev) else None
                | _ => None
                end
              else None
          | _ => None
          end) tr.

(** The calls [new ctor.member(args)] on the imported object [ctor]. *)
Definition constructed (ctor : Binding) (member : list string)
    (tr : list Event) : list (list Value * Outcome) :=
  omap (fun ev =>
          match ev_call ev with
          | Construct (VImport b) mem args =>
              if bool_decide (b = ctor /\ mem = member)
              then Some (args, ev_out ev) else None
          | _ => None
          end) tr.

(** The calls of the method [m] on any receiver: receiver and arguments. *)
Definition method_calls (m : string) (tr : list Event)
  : list (Value * list Value) :=
  omap (fun ev =>
          match ev_call ev with
          | Invoke obj m' args =>
              if bool_decide (m' = m) then Some (obj, args) else None
          | _ => None
          end) tr.

(** The property assignments. *)
Definition assigned (tr : list Event) : list (Value * list string * Value) :=
  omap (fun ev =>
          match ev_call ev with
          | Assign obj path v => Some (obj, path, v)
          | _ => None
          end) tr.

(** The plugin registrations: the argument lists of the [Vue.use] calls. *)
Definition registrations (tr : list Event) : list (list Value) :=
  (invoked Vue "use" tr).*1.

(** Position of the first event whose call is a [$mount]. *)
Definition is_mount (ev : Event) : bool :=
  match ev_call ev with
  | Invoke _ m _ => bool_decide (m = "$mount")
  | _ => false
  end.

(** What the [i]-th call of a trace returned ([undefined] when there is no
    such call or it raised). *)
Definition returned (tr : list Event) (i : nat) : Value :=
  match tr !! i with
  | Some (Ev _ (Normal v)) => v
  | _ => VUndefined
  end.

(** The script as the ordered list of its calls, given what each call
    returned: the later calls take earlier results as arguments. *)
Definition script_calls (res : nat -> Value) : list Call :=
  [ Assign (VImport Vue) ["config"; "productionTip"] (VBool false);
    Invoke (VImport Vue) "use" [VImport Notifications];
    Invoke (VImport Vue) "use" [VImport VModal; modal_options];
    Invoke (VImport Vue) "use" [VImport VueCookies];
    Invoke (VImport Vue) "use" [VImport VueShortkey];
    Invoke (VImport Sentry) "vueRouterInstrumentation" [VImport router];
    Construct (VImport Sentry) ["BrowserTracing"] [tracing_options (res 5)];
    Construct (VImport Sentry) ["Replay"] [];
    Invoke (VImport Sentry) "init" [VObj (sentry_options (res 6) (res 7))];
    Construct (VImport Vue) [] [VObj root_options];
    Invoke (res 9) "$mount" [VStr mount_point] ].

(** The trace of a run of the script in which every call returns. *)
Definition script_events (res : nat -> Value) : list Event :=
  imap (fun i c => Ev c (Normal (res i))) (script_calls res).

(** The trace of a run in which call number [n] raises [e]: the calls up
    to and including that one, and none after it. *)
Definition raised_events (res : nat -> Value) (n : nat) (e : Value)
  : list Event :=
  imap (fun i c => Ev c (if bool_decide (i = n) then Throw e
                         else Normal (res i)))
       (take (S n) (script_calls res)).

(** A run has the shape of the script when its trace is the script's
    call list, cut after the first call that raises. *)
Definition script_shaped {World : Type} (r : Run World) : Prop :=
  let res := returned (trace r) in
  (outcome r = Normal (res 10) /\ trace r = script_events res) \/
  (exists n e,
      n < 11 /\ outcome r = Throw e /\ trace r = raised_events res n e).

(** A library double for the examples: it answers every call with a fresh
    handle, except call number [fail_at], which raises.  Its state is the
    number of calls made so far. *)
Definition stub_lib (fail_at : option nat) (w : nat) (c : Call)
  : nat * Outcome :=
  (S w, if bool_decide (fail_at = Some w)
        then Throw (VStr "stub failure") else Normal (VHandle w)).

(** ** Properties of runs and of the configuration *)

(** The four registrations of lines 24-27, as argument lists. *)
Definition plugin_registrations : list (list Value) :=
  [ [VImport Notifications];
    [VImport VModal; modal_options];
    [VImport VueCookies];
    [VImport VueShortkey] ].

(** The plugins a list of registrations names, in order. *)
Definition registered_plugins (regs : list (list Value)) : list Binding :=
  omap (fun args => match args with
                    | VImport b :: _ => Some b
                    | _ => None
                    end) regs.

(** Line 11. *)
Definition productionTip_off : Call :=
  Assign (VImport Vue) ["config"; "productionTip"] (VBool false).

(** The first [$mount] call of a trace and its position. *)
Definition first_mount (tr : list Event) : option (nat * Event) :=
  list_find (fun ev => Is_true (is_mount ev)) tr.

(** A run that has constructed exactly one root view, from the options
    of the script, and mounted exactly that object at "#app". *)
Definition mounts_one_root {World : Type} (r : Run World) : Prop :=
  exists root,
    constructed Vue [] (trace r) = [([VObj root_options], Normal root)] /\
    method_calls "$mount" (trace r) = [(root, [VStr "#app"])].

(** The router a [new Vue] argument list supplies, and the store. *)
Definition dependency (name : string) (args : list Value) : option Value :=
  match args with
  | [VObj opts] => opts !! name
  | _ => None
  end.

(** The number a configuration record holds under [field], if any. *)
Definition sample_rate (opts : gmap string Value) (field : string)
  : option Q :=
  match opts !! field with
  | Some (VNum q) => Some q
  | _ => None
  end.

(** A field that holds a number between 0 and 1, both included. *)
Definition is_fraction (opts : gmap string Value) (field : string) : Prop :=
  exists q, sample_rate opts field = Some q /\ (0 <= q)%Q /\ (q <= 1)%Q.

(** The characters ["0"] to ["9"]. *)
Definition is_digit (c : ascii) : bool :=
  let n := nat_of_ascii c in ((48 <=? n) && (n <=? 57))%nat.

(** The characters ["A"] to ["Z"] and ["a"] to ["z"]. *)
Definition is_letter (c : ascii) : bool :=
  let n := nat_of_ascii c in
  (((65 <=? n) && (n <=? 90)) || ((97 <=? n) && (n <=? 122)))%nat.

(** The characters of a product name: letters, digits, and the
    punctuation of package names. *)
Definition is_name_char (c : ascii) : bool :=
  is_letter c || is_digit c
  || bool_decide (c = "-"%char) || bool_decide (c = "_"%char)
  || bool_decide (c = "."%char).

(** Every character of [s] passes [f]. *)
Fixpoint string_forall (f : ascii -> bool) (s : string) : bool :=
  match s with
  | EmptyString => true
  | String c s' => f c && string_forall f s'
  end.

(** A product name: one or more name characters. *)
Definition is_product (s : string) : Prop :=
  s <> EmptyString /\ string_forall is_name_char s = true.

(** A date written [YYYYMMDD]: eight digits. *)
Definition is_date (s : string) : Prop :=
  String.length s = 8 /\ string_forall is_digit s = true.

(** The format [<product><YYYYMMDD>]: a product name, then at once
    eight digits, and nothing else. *)
Definition product_then_date (s : string) : Prop :=
  exists product date,
    s = product +:+ date /\ is_product product /\ is_date date.

(** The format [<product>@<YYYYMMDD>]. *)
Definition product_at_date (s : string) : Prop :=
  exists product date,
    s = product +:+ "@" +:+ date /\ is_product product /\ is_date date.

(** ** Further readings of a trace *)

(** The values the calls of a trace raised, oldest first. *)
Definition raised (tr : list Event) : list Value :=
  omap (fun ev => match ev_out ev with
                  | Throw e => Some e
                  | Normal _ => None
                  end) tr.




(** The object a call is made on: the assigned object, the receiver of
    the method, the constructor. *)
Definition receiver (c : Call) : Value :=
  match c with
  | Assign obj _ _ => obj
  | Invoke obj _ _ => obj
  | Construct ctor _ _ => ctor
  end.

(** The record a one-argument call was given, if it was given a record
    and nothing else. *)
Definition sole_record (args : list Value) : option (gmap string Value) :=
  match args with
  | [VObj opts] => Some opts
  | _ => None
  end.

(** ** How every run of the script looks *)

Section Shape.
Context {World : Type} (lib : World -> Call -> World * Outcome).

Ltac ask_lib :=
  match goal with
  | |- context [lib ?w ?c] => destruct (lib w c) as [? [?|?]]
  end.

Ltac raised_here :=
  match goal with
  | |- script_shaped ?r =>
      let n := eval lazy in (pred (length (trace r))) in
      right; exists n; eexists; split; [lia | split; reflexivity]
  end.

Lemma run_bootstrap_shape (w : World) :
  script_shaped (run lib bootstrap w).
Proof.
  unfold bootstrap. cbn [run].
  do 11 (ask_lib; [ | raised_here ]).
  left. split; reflexivity.
Qed.
End Shape.

Ltac split_index n :=
  destruct n as [|n]; [ | first [ exfalso; lia | split_index n ] ].

(** Splits a goal about [run lib bootstrap w] into the twelve shapes a run
    can have: one per call that may raise, and the run in which none
    does.  The results of the calls stay abstract. *)
Ltac script_cases lib w :=
  let S := fresh "S" in
  let r := fresh "r" in
  let res := fresh "res" in
  let n := fresh "n" in
  let e := fresh "e" in
  let Hn := fresh "Hn" in
  let Ho := fresh "Ho" in
  let Ht := fresh "Ht" in
  pose proof (run_bootstrap_shape lib w) as S;
  unfold script_shaped in S; cbv zeta in S;
  set (r := run lib bootstrap w) in *; clearbody r;
  set (res := returned (trace r)) in *; clearbody res;
  destruct S as [[Ho Ht] | (n & e & Hn & Ho & Ht)];
  [ | split_index n; clear Hn ];
  rewrite ?Ho, ?Ht; clear Ho Ht.

(** Evaluates the trace readers and leaves the option records of the
    script folded. *)
Tactic Notation "read_trace" :=
  cbv - [modal_options tracing_options sentry_options root_options
         mount_point].
Tactic Notation "read_trace" "in" hyp(H) :=
  cbv - [modal_options tracing_options sentry_options root_options
         mount_point] in H.

(** ** Plugin registration *)

Lemma prefix_of_take {A} (l l' : list A) :
  l = take (length l) l' -> l `prefix_of` l'.
Proof. intros ->. apply prefix_take. Qed.

Lemma registered_plugins_prefix (l l' : list (list Value)) :
  l `prefix_of` l' -> registered_plugins l `prefix_of` registered_plugins l'.
Proof.
  intros [k ->]. unfold registered_plugins. rewrite omap_app.
  by apply prefix_app_r.
Qed.

Lemma NoDup_of_prefix {A} (l l' : list A) :
  l `prefix_of` l' -> NoDup l' -> NoDup l.
Proof. intros [k ->] H. by apply NoDup_app in H as [? _]. Qed.

(** Whatever the libraries do, the registrations made are an initial
    segment of the four of the script. *)
Lemma registrations_prefix
    {World : Type} (lib : World -> Call -> World * Outcome) (w : World) :
  registrations (trace (run lib bootstrap w)) `prefix_of` plugin_registrations.
Proof. script_cases lib w; apply prefix_of_take; read_trace; reflexivity. Qed.

(** C1. In every run of the bootstrap script the [Vue.use] calls made so
    far are an initial segment of the four registrations of
    notifications, modal dialogs, cookie access and keyboard shortcuts,
    in that order, so no plugin is ever registered twice, and no method
    named [use] is called on anything but [Vue]; a run that completes
    has made exactly these four, and only the modal-dialog one carries a
    second argument, the configuration record. *)
Theorem bootstrap_registers_plugins_once
    {World : Type} (lib : World -> Call -> World * Outcome) (w : World) :
  let r := run lib bootstrap w in
  registrations (trace r) `prefix_of` plugin_registrations /\
  NoDup (registered_plugins (registrations (trace r))) /\
  Forall (fun c => c.1 = VImport Vue) (method_calls "use" (trace r)) /\
  (forall v, outcome r = Normal v ->
     registrations (trace r) = plugin_registrations /\
     registered_plugins (registrations (trace r)) =
       [Notifications; VModal; VueCookies; VueShortkey] /\
     filter (fun args => length args <> 1) (registrations (trace r)) =
       [[VImport VModal; modal_options]]).
Proof.
  cbv zeta. pose proof (registrations_prefix lib w) as Hpre.
  split; [exact Hpre | split; [ | split ] ].
  - apply registered_plugins_prefix in Hpre.
    eapply NoDup_of_prefix; [exact Hpre | ].
    apply (bool_decide_unpack _). reflexivity.
  - script_cases lib w; read_trace; repeat constructor.
  - script_cases lib w; intros v Hv; try discriminate Hv.
    repeat split; read_trace; reflexivity.
Qed.

Lemma bootstrap_registers_plugins_once_witness :
  registrations (trace (run (stub_lib None) bootstrap 0))
  = plugin_registrations.
Proof.
  pose proof (bootstrap_registers_plugins_once (stub_lib None) 0) as H.
  cbv zeta in H. destruct H as (_ & _ & _ & H).
  destruct (H (VHandle 10)) as [H1 _]; [ | exact H1 ].
  vm_compute. reflexivity.
Defined.

(** ** The production-tip flag *)

(** C6. In every run the first call of the script writes [false] to
    [Vue.config.productionTip]; no plugin has been registered by then, and
    this is the only property assignment the script ever makes. *)
Theorem bootstrap_disables_production_tip_first
    {World : Type} (lib : World -> Call -> World * Outcome) (w : World) :
  let tr := trace (run lib bootstrap w) in
  ev_call <$> head tr = Some productionTip_off /\
  registrations (take 1 tr) = [] /\
  assigned tr = [(VImport Vue, ["config"; "productionTip"], VBool false)] /\
  assigned (drop 1 tr) = [].
Proof.
  cbv zeta. script_cases lib w; repeat split; read_trace; reflexivity.
Qed.

(** ** The root view *)

Lemma root_options_router : root_options !! "router" = Some (VImport router).
Proof. vm_compute. reflexivity. Qed.

Lemma root_options_store : root_options !! "store" = Some (VImport store).
Proof. vm_compute. reflexivity. Qed.

(** Not every run mounts a root view: when [Sentry.init] raises, the
    script ends there, and no root view is constructed or mounted. *)
Lemma failed_telemetry_run_mounts_nothing :
  ~ mounts_one_root (run (stub_lib (Some 8)) bootstrap 0).
Proof. intros (root & H & _). vm_compute in H. discriminate H. Qed.

(** C2, amended. No run constructs more than one root view or mounts
    more than once.  Whenever a run reaches the mount, the mount is the
    last call made, the four plugin registrations and the one telemetry
    configuration have all returned before it, and it is invoked, with
    the selector "#app", on the object the one [new Vue] call returned.
    A run that completes has constructed exactly one root view, from the
    options holding the router and the store, and mounted it. *)
Theorem bootstrap_mounts_one_root_last
    {World : Type} (lib : World -> Call -> World * Outcome) (w : World) :
  let r := run lib bootstrap w in
  let tr := trace r in
  length (constructed Vue [] tr) <= 1 /\
  length (method_calls "$mount" tr) <= 1 /\
  (forall i ev, first_mount tr = Some (i, ev) ->
     tr = take i tr ++ [ev] /\
     registrations (take i tr) = plugin_registrations /\
     (exists tracing replay x,
         invoked Sentry "init" (take i tr)
         = [([VObj (sentry_options tracing replay)], Normal x)]) /\
     (exists root,
         constructed Vue [] (take i tr)
         = [([VObj root_options], Normal root)] /\
         ev_call ev = Invoke root "$mount" [VStr "#app"])) /\
  (forall v, outcome r = Normal v ->
     mounts_one_root r /\
     root_options !! "router" = Some (VImport router) /\
     root_options !! "store" = Some (VImport store) /\
     (exists ev, first_mount tr = Some (10, ev) /\ ev_out ev = Normal v)).
Proof.
  cbv zeta. unfold mounts_one_root. script_cases lib w.
  all: split; [ read_trace; lia | ].
  all: split; [ read_trace; lia | ].
  all: split.
  all: try (intros v Hv; discriminate Hv).
  all: try (intros i ev Hm; read_trace in Hm;
            first [ discriminate Hm | injection Hm as <- <- ];
            repeat split; try (read_trace; reflexivity);
            repeat eexists; read_trace; reflexivity).
  intros v Hv. injection Hv as <-.
  split; [ eexists; split; read_trace; reflexivity | ].
  split; [ apply root_options_router | ].
  split; [ apply root_options_store | ].
  eexists. split; read_trace; reflexivity.
Qed.

Lemma bootstrap_mounts_one_root_last_witness :
  mounts_one_root (run (stub_lib None) bootstrap 0).
Proof.
  pose proof (bootstrap_mounts_one_root_last (stub_lib None) 0) as H.
  cbv zeta in H. destruct H as (_ & _ & _ & H).
  destruct (H (VHandle 10)) as [H1 _]; [ | exact H1 ].
  vm_compute. reflexivity.
Defined.

(** ** The telemetry client *)

Lemma sentry_options_dsn tracing replay :
  sentry_options tracing replay !! "dsn" = Some (VStr dsn).
Proof. vm_compute. reflexivity. Qed.

Lemma sentry_options_release tracing replay :
  sentry_options tracing replay !! "release" = Some (VStr release).
Proof. vm_compute. reflexivity. Qed.

Lemma sentry_options_integrations tracing replay :
  sentry_options tracing replay !! "integrations"
  = Some (VArr [tracing; replay]).
Proof. vm_compute. reflexivity. Qed.

Lemma tracing_options_instrumentation instrumentation :
  tracing_options instrumentation
  = VObj {[ "routingInstrumentation" := instrumentation ]}.
Proof. vm_compute. reflexivity. Qed.

(** C7. No run calls [Sentry.init] more than once.  A run that completes
    has called it exactly once, with a record whose [dsn] is the
    endpoint string, whose [release] is the release tag, and whose
    [integrations] are, in order, the object [new Sentry.BrowserTracing]
    returned when given the routing instrumentation that
    [Sentry.vueRouterInstrumentation(router)] returned, and the object
    [new Sentry.Replay()] returned. *)
Theorem bootstrap_configures_telemetry_once
    {World : Type} (lib : World -> Call -> World * Outcome) (w : World) :
  let r := run lib bootstrap w in
  let tr := trace r in
  length (invoked Sentry "init" tr) <= 1 /\
  (forall v, outcome r = Normal v ->
     exists instrumentation tracing replay x opts,
       invoked Sentry "vueRouterInstrumentation" tr
       = [([VImport router], Normal instrumentation)] /\
       constructed Sentry ["BrowserTracing"] tr
       = [([VObj {[ "routingInstrumentation" := instrumentation ]}],
           Normal tracing)] /\
       constructed Sentry ["Replay"] tr = [([], Normal replay)] /\
       invoked Sentry "init" tr = [([VObj opts], Normal x)] /\
       opts !! "dsn" = Some (VStr dsn) /\
       opts !! "release" = Some (VStr release) /\
       opts !! "integrations" = Some (VArr [tracing; replay])).
Proof.
  cbv zeta. script_cases lib w.
  all: split; [ read_trace; lia | ].
  all: intros v Hv; try discriminate Hv.
  exists (res 5), (res 6), (res 7), (res 8), (sentry_options (res 6) (res 7)).
  split; [ read_trace; reflexivity | ].
  split; [ rewrite <- tracing_options_instrumentation;
           read_trace; reflexivity | ].
  split; [ read_trace; reflexivity | ].
  split; [ read_trace; reflexivity | ].
  split; [ apply sentry_options_dsn | ].
  split; [ apply sentry_options_release | ].
  apply sentry_options_integrations.
Qed.

Lemma bootstrap_configures_telemetry_once_witness :
  length (invoked Sentry "init" (trace (run (stub_lib None) bootstrap 0))) = 1.
Proof.
  pose proof (bootstrap_configures_telemetry_once (stub_lib None) 0) as H.
  cbv zeta in H. destruct H as [_ H].
  destruct (H (VHandle 10)) as (i & t & p & x & opts & _ & _ & _ & E & _).
  - vm_compute. reflexivity.
  - rewrite E. reflexivity.
Defined.

(** ** One router, one store *)

(** C10. In every run, every router handed to
    [Sentry.vueRouterInstrumentation] and every router handed to
    [new Vue] is the one object the [router] import names, and every
    store handed to [new Vue] is the one object the [store] import names;
    a run that completes has handed over each exactly once. *)
Theorem bootstrap_shares_router_and_store
    {World : Type} (lib : World -> Call -> World * Outcome) (w : World) :
  let r := run lib bootstrap w in
  let tr := trace r in
  let instrumented := (invoked Sentry "vueRouterInstrumentation" tr).*1 in
  let roots := (constructed Vue [] tr).*1 in
  (forall a, a ∈ instrumented -> a = [VImport router]) /\
  (forall b, b ∈ roots ->
     dependency "router" b = Some (VImport router) /\
     dependency "store" b = Some (VImport store)) /\
  (forall v, outcome r = Normal v ->
     instrumented = [[VImport router]] /\
     dependency "router" <$> roots = [Some (VImport router)] /\
     dependency "store" <$> roots = [Some (VImport store)]).
Proof.
  cbv zeta. script_cases lib w.
  all: split;
    [ intros a Ha; read_trace in Ha;
      first [ apply elem_of_nil in Ha; contradiction
            | apply list_elem_of_singleton in Ha as ->; reflexivity ] | ].
  all: split;
    [ intros b Hb; read_trace in Hb;
      first [ apply elem_of_nil in Hb; contradiction
            | apply list_elem_of_singleton in Hb as ->;
              split; [ apply root_options_router
                     | apply root_options_store ] ] | ].
  all: try (intros v Hv; discriminate Hv).
  intros v _. split; [ read_trace; reflexivity | ].
  split; vm_compute; reflexivity.
Qed.

Lemma bootstrap_shares_router_and_store_witness :
  (invoked Sentry "vueRouterInstrumentation"
     (trace (run (stub_lib None) bootstrap 0))).*1 = [[VImport router]] /\
  dependency "router"
    <$> (constructed Vue [] (trace (run (stub_lib None) bootstrap 0))).*1
  = [Some (VImport router)].
Proof.
  pose proof (bootstrap_shares_router_and_store (stub_lib None) 0) as H.
  cbv zeta in H. destruct H as (_ & _ & H).
  destruct (H (VHandle 10)) as (H1 & H2 & _).
  - vm_compute. reflexivity.
  - split; assumption.
Defined.

(** ** Failure *)

Lemma handler_free_bootstrap : handler_free bootstrap.
Proof. unfold bootstrap. repeat (constructor; intros). Qed.

Section Propagation.
Context {World : Type} (lib : World -> Call -> World * Outcome).

(** In a script without handlers a call that raises is the last call
    made, and what it raised is how the script ends. *)
Lemma handler_free_raise_ends (p : Prog) :
  handler_free p ->
  forall w pre c e post,
    trace (run lib p w) = pre ++ Ev c (Throw e) :: post ->
    post = [] /\ outcome (run lib p w) = Throw e.
Proof.
  induction 1 as [v | c0 k _ IH]; intros w pre c e post Htr; cbn in *.
  - by destruct pre.
  - destruct (lib w c0) as [w1 [v | e0]]; cbn in *.
    + destruct pre as [ | ev pre]; [ discriminate Htr | ].
      injection Htr as _ Htr. by apply (IH v w1 pre c e post).
    + destruct pre as [ | ev pre].
      * injection Htr as <- <- <-. done.
      * injection Htr as _ Htr. by destruct pre.
Qed.

(** A script without handlers ends by raising only when its last call
    raised: the script raises nothing of its own. *)
Lemma handler_free_raise_comes_from_call (p : Prog) :
  handler_free p ->
  forall w e,
    outcome (run lib p w) = Throw e ->
    exists pre c, trace (run lib p w) = pre ++ [Ev c (Throw e)].
Proof.
  induction 1 as [v | c0 k _ IH]; intros w e Ho; cbn in *.
  - discriminate Ho.
  - destruct (lib w c0) as [w1 [v | e0]]; cbn in *.
    + destruct (IH v w1 e Ho) as (pre & c & ->).
      by exists (Ev c0 (Normal v) :: pre), c.
    + injection Ho as <-. by exists [], c0.
Qed.
End Propagation.

(** Whatever the libraries answer, the calls made are an initial segment
    of the one call list of the script: no answer is inspected, no call
    is made a second time. *)
Lemma calls_prefix
    {World : Type} (lib : World -> Call -> World * Outcome) (w : World) :
  let tr := trace (run lib bootstrap w) in
  (ev_call <$> tr) `prefix_of` script_calls (returned tr).
Proof.
  cbv zeta.
  pose proof (run_bootstrap_shape lib w) as S.
  unfold script_shaped in S; cbv zeta in S.
  set (r := run lib bootstrap w) in *; clearbody r.
  destruct S as [[_ Ht] | (n & e & Hn & _ & Ht)].
  - rewrite Ht at 1. by exists [].
  - rewrite Ht at 1. split_index n; apply prefix_of_take; reflexivity.
Qed.

(** C8. The bootstrap script contains no handler, and whenever one of its
    library calls raises, in any run and at any step, nothing is called
    afterwards (no retry, no recovery) and the script ends by raising
    that same value; the calls made up to there are an initial segment
    of the fixed call list, whatever the earlier calls returned (no
    validation). *)
Theorem bootstrap_propagates_exceptions
    {World : Type} (lib : World -> Call -> World * Outcome) (w : World)
    (pre post : list Event) (c : Call) (e : Value) :
  trace (run lib bootstrap w) = pre ++ Ev c (Throw e) :: post ->
  handler_free bootstrap /\
  post = [] /\
  outcome (run lib bootstrap w) = Throw e /\
  (ev_call <$> pre ++ [Ev c (Throw e)])
    `prefix_of` script_calls (returned (trace (run lib bootstrap w))).
Proof.
  intros Htr. split; [ apply handler_free_bootstrap | ].
  destruct (handler_free_raise_ends lib bootstrap handler_free_bootstrap
              w pre c e post Htr) as [-> Ho].
  split; [ reflexivity | ]. split; [ exact Ho | ].
  rewrite <- Htr at 1. apply calls_prefix.
Qed.

Lemma bootstrap_propagates_exceptions_witness :
  handler_free bootstrap /\
  outcome (run (stub_lib (Some 8)) bootstrap 0) = Throw (VStr "stub failure").
Proof.
  destruct (bootstrap_propagates_exceptions (stub_lib (Some 8)) 0
              (take 8 (trace (run (stub_lib (Some 8)) bootstrap 0))) []
              (Invoke (VImport Sentry) "init"
                      [VObj (sentry_options (VHandle 6) (VHandle 7))])
              (VStr "stub failure")) as (Hfree & _ & Hout & _).
  - vm_compute. reflexivity.
  - split; assumption.
Defined.

(** ** The dialog defaults *)

(** C3. The record bound to [dynamicDefaults] has the seven keys
    adaptive, classes, height, width, resizable, scrollable and styles,
    and no other; their values are the literals of lines 13-22, [styles]
    being the two-entry record of lines 19-22; and every registration of
    the modal plugin, in every run, passes this record under the key
    [dynamicDefaults] as its one option. *)
Theorem dynamicDefaults_literal
    {World : Type} (lib : World -> Call -> World * Outcome) (w : World) :
  dom dynamicDefaults
  = ({[ "adaptive"; "classes"; "height"; "width"; "resizable";
        "scrollable"; "styles" ]} : gset string) /\
  dynamicDefaults !! "adaptive" = Some (VBool true) /\
  dynamicDefaults !! "classes" = Some (VStr "card") /\
  dynamicDefaults !! "height" = Some (VStr "auto") /\
  dynamicDefaults !! "width" = Some (VStr "800px") /\
  dynamicDefaults !! "resizable" = Some (VBool false) /\
  dynamicDefaults !! "scrollable" = Some (VBool true) /\
  dynamicDefaults !! "styles"
  = Some (VObj {[ "max-height" := VStr "80vh"; "overflow-y" := VStr "auto" ]}) /\
  (forall args,
     args ∈ registrations (trace (run lib bootstrap w)) ->
     head args = Some (VImport VModal) ->
     args = [VImport VModal;
             VObj {[ "dynamicDefaults" := VObj dynamicDefaults ]}]).
Proof.
  do 8 (split; [ vm_compute; reflexivity | ]).
  intros args Hin Hhead.
  destruct (registrations_prefix lib w) as [k Hk].
  assert (args ∈ plugin_registrations) as Hall.
  { rewrite Hk. apply elem_of_app. by left. }
  unfold plugin_registrations in Hall.
  repeat (apply elem_of_cons in Hall as [-> | Hall]);
    try discriminate Hhead.
  - vm_compute. reflexivity.
  - by apply elem_of_nil in Hall.
Qed.

Lemma dynamicDefaults_literal_witness :
  [VImport VModal; modal_options]
  = [VImport VModal; VObj {[ "dynamicDefaults" := VObj dynamicDefaults ]}].
Proof.
  pose proof (dynamicDefaults_literal (stub_lib None) 0) as H.
  do 8 (destruct H as [_ H]).
  apply H; [ | reflexivity ].
  read_trace. apply list_elem_of_further, list_elem_of_here.
Defined.

(** ** Sample rates *)

(** C4. Whatever the two integration objects are, the record given to
    [Sentry.init] holds a number of the interval [0, 1] in each of
    [tracesSampleRate], [replaysSessionSampleRate] and
    [replaysOnErrorSampleRate]. *)
Theorem sample_rates_are_fractions (tracing replay : Value) :
  is_fraction (sentry_options tracing replay) "tracesSampleRate" /\
  is_fraction (sentry_options tracing replay) "replaysSessionSampleRate" /\
  is_fraction (sentry_options tracing replay) "replaysOnErrorSampleRate".
Proof.
  repeat split; eexists; (split; [ vm_compute; reflexivity | ]);
    split; unfold Qle; simpl; lia.
Qed.

(** C9. The record given to [Sentry.init] samples no ordinary session
    for replay (rate 0), every session with an error (rate 1), and half
    of the performance traces (rate 0.5). *)
Theorem replays_only_on_error (tracing replay : Value) :
  sample_rate (sentry_options tracing replay) "replaysSessionSampleRate"
  = Some 0%Q /\
  sample_rate (sentry_options tracing replay) "replaysOnErrorSampleRate"
  = Some 1%Q /\
  (exists q,
      sample_rate (sentry_options tracing replay) "tracesSampleRate" = Some q /\
      (q == 1 # 2)%Q).
Proof.
  split; [ vm_compute; reflexivity | ].
  split; [ vm_compute; reflexivity | ].
  eexists. split; [ vm_compute; reflexivity | ]. reflexivity.
Qed.

(** ** The release tag *)

Lemma string_forall_app f (s t : string) :
  string_forall f (s +:+ t) = string_forall f s && string_forall f t.
Proof.
  induction s as [ | c s IH]; [ reflexivity | ].
  simpl. by rewrite IH, andb_assoc.
Qed.

Lemma string_forall_weaken (f g : ascii -> bool) (s : string) :
  (forall c, f c = true -> g c = true) ->
  string_forall f s = true -> string_forall g s = true.
Proof.
  intros Hfg. induction s as [ | c s IH]; [ done | ].
  cbn [string_forall]. intros [Hc Hs]%andb_true_iff.
  by rewrite (Hfg c Hc), (IH Hs).
Qed.

Lemma digit_is_name_char c : is_digit c = true -> is_name_char c = true.
Proof.
  unfold is_name_char. intros ->.
  by rewrite orb_true_r.
Qed.

(** The release tag is not a product name directly followed by a date:
    an "@" stands between the two. *)
Lemma release_is_not_product_then_date : ~ product_then_date release.
Proof.
  intros (product & date & E & [_ Hp] & [_ Hd]).
  assert (string_forall is_name_char release = true) as H.
  { rewrite E, string_forall_app, Hp. cbn [andb].
    apply (string_forall_weaken is_digit);
      [ apply digit_is_name_char | exact Hd ]. }
  vm_compute in H. discriminate H.
Qed.

(** C5, amended. The release tag given to [Sentry.init] is the product
    name "savageaim", an "@", and the eight digits "20240716", with
    nothing else: it has the format [<product>@<YYYYMMDD>]. *)
Theorem release_is_product_at_date (tracing replay : Value) :
  sentry_options tracing replay !! "release" = Some (VStr release) /\
  release = "savageaim" +:+ "@" +:+ "20240716" /\
  is_product "savageaim" /\
  is_date "20240716" /\
  product_at_date release.
Proof.
  assert (is_product "savageaim") as Hp
    by (split; [ discriminate | reflexivity ]).
  assert (is_date "20240716") as Hd by (split; reflexivity).
  split; [ apply sentry_options_release | ].
  split; [ reflexivity | ]. split; [ exact Hp | ]. split; [ exact Hd | ].
  by exists "savageaim", "20240716".
Qed.

(** ** Order of the setup steps *)



(** ** Completion *)



(** X3. The script raises nothing of its own: a run that ends by raising
    [e] ends with a library call that raised [e], every call before it
    returned, and [e] is the only value raised in the run. *)
Theorem bootstrap_raises_only_what_a_call_raised
    {World : Type} (lib : World -> Call -> World * Outcome) (w : World)
    (e : Value) :
  outcome (run lib bootstrap w) = Throw e ->
  exists pre c,
    trace (run lib bootstrap w) = pre ++ [Ev c (Throw e)] /\
    raised pre = [] /\
    raised (trace (run lib bootstrap w)) = [e].
Proof.
  script_cases lib w; intros He; try discriminate He; injection He as <-.
  all: match goal with
       | |- exists pre c, ?tr = _ /\ _ =>
           let n := eval lazy in (pred (length tr)) in
           exists (take n tr); eexists
       end.
  all: split; [ | split ]; read_trace; reflexivity.
Qed.

Lemma bootstrap_raises_only_what_a_call_raised_witness :
  raised (trace (run (stub_lib (Some 3)) bootstrap 0)) = [VStr "stub failure"].
Proof.
  destruct (bootstrap_raises_only_what_a_call_raised
              (stub_lib (Some 3)) 0 (VStr "stub failure"))
    as (pre & c & _ & _ & H).
  - vm_compute. reflexivity.
  - exact H.
Defined.

(** X4. A run that ends by raising has mounted nothing: either it made no
    [$mount] call, or the [$mount] call is the very call that raised. *)
Theorem failed_run_has_no_successful_mount
    {World : Type} (lib : World -> Call -> World * Outcome) (w : World)
    (e : Value) :
  outcome (run lib bootstrap w) = Throw e ->
  match first_mount (trace (run lib bootstrap w)) with
  | None => method_calls "$mount" (trace (run lib bootstrap w)) = []
  | Some (i, ev) => ev_out ev = Throw e /\ i = 10
  end.
Proof.
  script_cases lib w; intros He; try discriminate He; injection He as <-.
  all: read_trace; first [ reflexivity | split; reflexivity ].
Qed.

Lemma failed_run_has_no_successful_mount_witness :
  method_calls "$mount" (trace (run (stub_lib (Some 9)) bootstrap 0)) = [].
Proof.
  pose proof (failed_run_has_no_successful_mount
                (stub_lib (Some 9)) 0 (VStr "stub failure")) as H.
  assert (first_mount (trace (run (stub_lib (Some 9)) bootstrap 0)) = None)
    as E by (vm_compute; reflexivity).
  rewrite E in H. apply H. vm_compute. reflexivity.
Defined.

(** ** The records handed to the libraries *)

Lemma sentry_options_dom tracing replay :
  dom (sentry_options tracing replay)
  = ({[ "Vue"; "dsn"; "logErrors"; "release"; "integrations";
        "tracesSampleRate"; "replaysSessionSampleRate";
        "replaysOnErrorSampleRate" ]} : gset string).
Proof. vm_compute. reflexivity. Qed.

Lemma root_options_dom :
  dom root_options = ({[ "render"; "router"; "store" ]} : gset string).
Proof. vm_compute. reflexivity. Qed.

(** X5. In every run, every [Sentry.init] call is given one argument, a
    record with the eight keys of lines 30-44 and no other; its [Vue] is
    the framework object the plugins are registered on, and its
    [logErrors] is on. *)
Theorem telemetry_record_shape
    {World : Type} (lib : World -> Call -> World * Outcome) (w : World)
    (args : list Value) :
  args ∈ (invoked Sentry "init" (trace (run lib bootstrap w))).*1 ->
  exists opts,
    sole_record args = Some opts /\
    dom opts
    = ({[ "Vue"; "dsn"; "logErrors"; "release"; "integrations";
          "tracesSampleRate"; "replaysSessionSampleRate";
          "replaysOnErrorSampleRate" ]} : gset string) /\
    opts !! "Vue" = Some (VImport Vue) /\
    opts !! "logErrors" = Some (VBool true).
Proof.
  script_cases lib w; intros Ha; read_trace in Ha.
  all: first [ apply elem_of_nil in Ha; contradiction
             | apply list_elem_of_singleton in Ha as -> ].
  all: eexists; split; [ reflexivity | ].
  all: split; [ apply sentry_options_dom | ].
  all: split; vm_compute; reflexivity.
Qed.

Lemma telemetry_record_shape_witness :
  exists opts,
    sole_record [VObj (sentry_options (VHandle 6) (VHandle 7))] = Some opts /\
    opts !! "logErrors" = Some (VBool true).
Proof.
  destruct (telemetry_record_shape (stub_lib None) 0
              [VObj (sentry_options (VHandle 6) (VHandle 7))])
    as (opts & H1 & _ & _ & H2).
  - vm_compute. apply list_elem_of_here.
  - exists opts. split; assumption.
Defined.

(** X6. In every run, every [new Vue] call is given one argument, a
    record with exactly the keys [render], [router] and [store], whose
    [render] is the function that renders the [App] component. *)
Theorem root_record_shape
    {World : Type} (lib : World -> Call -> World * Outcome) (w : World)
    (args : list Value) :
  args ∈ (constructed Vue [] (trace (run lib bootstrap w))).*1 ->
  exists opts,
    sole_record args = Some opts /\
    dom opts = ({[ "render"; "router"; "store" ]} : gset string) /\
    opts !! "render" = Some (VRender App).
Proof.
  script_cases lib w; intros Ha; read_trace in Ha.
  all: first [ apply elem_of_nil in Ha; contradiction
             | apply list_elem_of_singleton in Ha as -> ].
  all: eexists; split; [ reflexivity | ].
  all: split; [ apply root_options_dom | vm_compute; reflexivity ].
Qed.

Lemma root_record_shape_witness :
  exists opts,
    sole_record [VObj root_options] = Some opts /\
    opts !! "render" = Some (VRender App).
Proof.
  destruct (root_record_shape (stub_lib None) 0 [VObj root_options])
    as (opts & H1 & _ & H2).
  - vm_compute. apply list_elem_of_here.
  - exists opts. split; assumption.
Defined.

(** ** What the script calls into *)

